(** * prometheus-hetzner-sd: the command line entry point

    A shallow embedding of [cmd/prometheus-hetzner-sd/main.go]: the flag
    table of the [server] command, the command's action (optional config
    file merge, output file check, credential flags, credential check,
    dispatch into [action.Server]) and the exit behaviour of [main].

    The action mutates the configuration through a pointer and calls into
    code outside the file ([setupLogger], [readConfig], [action.Server],
    the leveled logger).  It is modelled in a small state monad with early
    return: the state holds the configuration behind the pointer and the
    list of external calls made so far. *)

From Stdlib Require Import String List ZArith Bool.
Import ListNotations.
Open Scope string_scope.
Open Scope list_scope.

(** ** Errors *)

(** The four package level error values of main.go (lines 15-27), and the
    errors created elsewhere ([readConfig], [action.Server]), which are
    carried by their message.  Go compares errors by identity, so a value
    made elsewhere is none of the four. *)
Inductive error : Type :=
| ErrMissingOutputFile
| ErrMissingHetznerUsername
| ErrMissingHetznerPassword
| ErrMissingAnyCredentials
| ErrForeign (msg : string).

(** The [Error()] method: the texts given to [errors.New]. *)
Definition Error (e : error) : string :=
  match e with
  | ErrMissingOutputFile => "Missing path for output.file"
  | ErrMissingHetznerUsername => "Missing required hetzner.username"
  | ErrMissingHetznerPassword => "Missing required hetzner.password"
  | ErrMissingAnyCredentials => "Missing any credentials"
  | ErrForeign msg => msg
  end.

(** ** Configuration (package config) *)

(** The type declarations of [pkg/config] are modelled from the uses in
    main.go: the fields the flags write to ([Destination]) and the
    fields the action reads and writes. *)
Module config.

Record Credential : Type := mkCredential
  { Project : string; Username : string; Password : string }.

Record LogsT : Type := mkLogs { Level : string; Pretty : bool }.

Record ServerT : Type := mkServer { Addr : string; Path : string }.

Record TargetT : Type := mkTarget
  { File : string; Refresh : Z; Credentials : list Credential }.

Record Config : Type := mkConfig
  { Server : ServerT; Logs : LogsT; Target : TargetT }.

Definition withCredentials (cfg : Config) (cs : list Credential) : Config :=
  mkConfig (Server cfg) (Logs cfg)
           (mkTarget (File (Target cfg)) (Refresh (Target cfg)) cs).

End config.
Import config.

(** [config.Load()], main.go line 30.  Package config is not among the
    sources and they do not say what a fresh configuration holds, so the
    configuration it returns is a parameter. *)
Class ConfigPackage : Type := mkConfigPackage { Load : Config }.

(** ** The flag table (package cli) *)

Module cli.

Inductive Value : Type :=
| StringValue (s : string)
| IntValue (n : Z)
| BoolValue (b : bool).

(** Where a flag's [Destination] pointer points to. *)
Inductive Dest : Type :=
| LogsLevel | LogsPretty | ServerAddr | ServerPath | TargetFile | TargetRefresh.

Record Flag : Type := mkFlag
  { Name : string;
    Default : Value;
    Usage : string;
    EnvVars : list string;
    Destination : option Dest }.

(** What the action sees of [*cli.Context]. *)
Record Ctx : Type := mkCtx
  { IsSet : string -> bool;
    GetString : string -> string }.

End cli.
Import cli.

(** [app.Flags], main.go lines 46-61. *)
Definition globalFlags : list Flag :=
  [ mkFlag "log.level" (StringValue "info")
      "Only log messages with given severity"
      ["PROMETHEUS_HETZNER_LOG_LEVEL"] (Some LogsLevel);
    mkFlag "log.pretty" (BoolValue false)
      "Enable pretty messages for logging"
      ["PROMETHEUS_HETZNER_LOG_PRETTY"] (Some LogsPretty) ].

(** The [Flags] of the [server] command, main.go lines 66-113. *)
Definition serverFlags : list Flag :=
  [ mkFlag "web.address" (StringValue "0.0.0.0:9000")
      "Address to bind the metrics server"
      ["PROMETHEUS_HETZNER_WEB_ADDRESS"] (Some ServerAddr);
    mkFlag "web.path" (StringValue "/metrics")
      "Path to bind the metrics server"
      ["PROMETHEUS_HETZNER_WEB_PATH"] (Some ServerPath);
    mkFlag "output.file" (StringValue "/etc/prometheus/hetzner.json")
      "Path to write the file_sd config"
      ["PROMETHEUS_HETZNER_OUTPUT_FILE"] (Some TargetFile);
    mkFlag "output.refresh" (IntValue 30)
      "Discovery refresh interval in seconds"
      ["PROMETHEUS_HETZNER_OUTPUT_REFRESH"] (Some TargetRefresh);
    mkFlag "hetzner.username" (StringValue "")
      "Username for the Hetzner API"
      ["PROMETHEUS_HETZNER_USERNAME"] None;
    mkFlag "hetzner.password" (StringValue "")
      "Password for the Hetzner API"
      ["PROMETHEUS_HETZNER_PASSWORD"] None;
    mkFlag "hetzner.config" (StringValue "")
      "Path to Hetzner configuration file"
      ["PROMETHEUS_HETZNER_CONFIG"] None ].

(** ** An invocation, as the cli library resolves it *)

(** The flags given on the command line and the environment variables
    present, both after the library's parsing of their text. *)
Record Invocation : Type := mkInvocation
  { cmdline : list (string * Value);
    environ : list (string * Value) }.

Fixpoint assoc {A : Type} (k : string) (l : list (string * A)) : option A :=
  match l with
  | [] => None
  | (k', v) :: l' => if String.eqb k k' then Some v else assoc k l'
  end.

(** The first of a flag's environment variables that is present with a
    text: the library takes a variable only when its text is not empty, so
    one that is present and empty counts as absent. *)
Fixpoint fromEnv (vars : list string) (env : list (string * Value)) : option Value :=
  match vars with
  | [] => None
  | v :: vars' =>
      match assoc v env with
      | Some (StringValue EmptyString) => fromEnv vars' env
      | Some x => Some x
      | None => fromEnv vars' env
      end
  end.

(** The command line wins over the environment, which wins over the
    flag's [Value]. *)
Definition resolve (inv : Invocation) (f : Flag) : Value :=
  match assoc (Name f) (cmdline inv) with
  | Some v => v
  | None =>
      match fromEnv (EnvVars f) (environ inv) with
      | Some v => v
      | None => Default f
      end
  end.

(** Whether the flag was set: on the command line, or through an
    environment variable that is present with a text. *)
Definition given (inv : Invocation) (f : Flag) : bool :=
  match assoc (Name f) (cmdline inv), fromEnv (EnvVars f) (environ inv) with
  | None, None => false
  | _, _ => true
  end.

Fixpoint findFlag (name : string) (fs : list Flag) : option Flag :=
  match fs with
  | [] => None
  | f :: fs' => if String.eqb name (Name f) then Some f else findFlag name fs'
  end.

(** The context the action is called with: [c.IsSet] and [c.String] for
    the declared flags. *)
Definition contextOf (inv : Invocation) : Ctx :=
  mkCtx
    (fun name =>
       match findFlag name (serverFlags ++ globalFlags) with
       | Some f => given inv f
       | None => false
       end)
    (fun name =>
       match findFlag name (serverFlags ++ globalFlags) with
       | Some f => match resolve inv f with StringValue s => s | _ => "" end
       | None => ""
       end).

(** Writing a resolved value through a flag's [Destination]. *)
Definition store (d : Dest) (v : Value) (cfg : Config) : Config :=
  match d, v with
  | LogsLevel, StringValue s =>
      mkConfig (Server cfg) (mkLogs s (Pretty (Logs cfg))) (Target cfg)
  | LogsPretty, BoolValue b =>
      mkConfig (Server cfg) (mkLogs (Level (Logs cfg)) b) (Target cfg)
  | ServerAddr, StringValue s =>
      mkConfig (mkServer s (Path (Server cfg))) (Logs cfg) (Target cfg)
  | ServerPath, StringValue s =>
      mkConfig (mkServer (Addr (Server cfg)) s) (Logs cfg) (Target cfg)
  | TargetFile, StringValue s =>
      mkConfig (Server cfg) (Logs cfg)
               (mkTarget s (Refresh (Target cfg)) (Credentials (Target cfg)))
  | TargetRefresh, IntValue n =>
      mkConfig (Server cfg) (Logs cfg)
               (mkTarget (File (Target cfg)) n (Credentials (Target cfg)))
  | _, _ => cfg
  end.

Definition bind1 (inv : Invocation) (cfg : Config) (f : Flag) : Config :=
  match Destination f with
  | Some d => store d (resolve inv f) cfg
  | None => cfg
  end.

(** The configuration the action starts from: [config.Load()] with every
    [Destination] written. *)
Definition entryConfig {L : ConfigPackage} (inv : Invocation) : Config :=
  fold_left (bind1 inv) (globalFlags ++ serverFlags) Load.

(** Reading the field a [Destination] points to. *)
Definition load (d : Dest) (cfg : Config) : Value :=
  match d with
  | LogsLevel => StringValue (Level (Logs cfg))
  | LogsPretty => BoolValue (Pretty (Logs cfg))
  | ServerAddr => StringValue (Addr (Server cfg))
  | ServerPath => StringValue (Path (Server cfg))
  | TargetFile => StringValue (File (Target cfg))
  | TargetRefresh => IntValue (Refresh (Target cfg))
  end.

(** What the action has of an option: the field behind the flag's
    [Destination] in the configuration it starts from, or, for a flag
    without one, what the context answers for its name. *)
Definition received {L : ConfigPackage} (inv : Invocation) (f : Flag) : Value :=
  match Destination f with
  | Some d => load d (entryConfig inv)
  | None => StringValue (GetString (contextOf inv) (Name f))
  end.

(** Two values of the same type of flag. *)
Definition sameKind (a b : Value) : bool :=
  match a, b with
  | StringValue _, StringValue _ => true
  | IntValue _, IntValue _ => true
  | BoolValue _, BoolValue _ => true
  | _, _ => false
  end.

(** ** The code around main.go *)

(** The functions main.go calls and does not define.  [readConfig] and
    [action.Server] receive the configuration pointer, so they return the
    configuration they leave behind together with their error ([None] for
    nil, [Some msg] for an error of their own making). *)
Class World : Type := mkWorld
  { Logger : Type;
    setupLogger : Config -> Logger;
    readConfig : string -> Config -> Config * option string;
    action_Server : Config -> Logger -> Config * option string }.

(** A value passed to the logger. *)
Inductive LogValue : Type :=
| LogText (s : string)
| LogErr (e : error).

Section Action.

Context {W : World}.

(** The calls that leave main.go, in the order they are made. *)
Inductive Event : Type :=
| CallSetupLogger (cfg : Config)
| CallReadConfig (file : string) (cfg : Config)
| LogError (keyvals : list (string * LogValue))
| CallServer (cfg : Config) (logger : Logger).

(** What the action works on: the configuration behind [cfg], and the
    calls made so far. *)
Record State : Type := mkState { cfg : Config; calls : list Event }.

(** A statement either falls through with a value or returns from the
    action. *)
Inductive Step (A : Type) : Type :=
| Next (a : A)
| Return (r : option error).
Arguments Next {A} a.
Arguments Return {A} r.

Definition Act (A : Type) : Type := State -> Step A * State.

Definition pure {A : Type} (a : A) : Act A := fun s => (Next a, s).

Definition bind {A B : Type} (m : Act A) (k : A -> Act B) : Act B :=
  fun s =>
    match m s with
    | (Next a, s') => k a s'
    | (Return r, s') => (Return r, s')
    end.

Definition return_ {A : Type} (r : option error) : Act A :=
  fun s => (Return r, s).

Definition getCfg : Act Config := fun s => (Next (cfg s), s).

Definition setCfg (c : Config) : Act unit :=
  fun s => (Next tt, mkState c (calls s)).

Definition emit (e : Event) : Act unit :=
  fun s => (Next tt, mkState (cfg s) (calls s ++ [e])).

Definition when (b : bool) (m : Act unit) : Act unit :=
  if b then m else pure tt.

End Action.

Arguments Next {A} a.
Arguments Return {A} r.

Declare Scope act_scope.
Delimit Scope act_scope with act.
Notation "x <- m ;; k" := (bind m (fun x => k))
  (at level 61, m at next level, right associativity) : act_scope.
Notation "m ;; k" := (bind m (fun _ => k))
  (at level 61, right associativity) : act_scope.
Open Scope act_scope.

Section ServerCommand.

Context {W : World}.

Definition foreign (e : option string) : option error :=
  match e with
  | Some msg => Some (ErrForeign msg)
  | None => None
  end.

(** [setupLogger(cfg)] *)
Definition call_setupLogger : Act Logger :=
  c <- getCfg ;;
  emit (CallSetupLogger c) ;;
  pure (setupLogger c).

(** [readConfig(file, cfg)] *)
Definition call_readConfig (file : string) : Act (option error) :=
  c <- getCfg ;;
  emit (CallReadConfig file c) ;;
  setCfg (fst (readConfig file c)) ;;
  pure (foreign (snd (readConfig file c))).

(** [action.Server(cfg, logger)] *)
Definition call_Server (logger : Logger) : Act (option error) :=
  c <- getCfg ;;
  emit (CallServer c logger) ;;
  setCfg (fst (action_Server c logger)) ;;
  pure (foreign (snd (action_Server c logger))).

(** [level.Error(logger).Log(keyvals...)] *)
Definition logError (logger : Logger) (keyvals : list (string * LogValue)) : Act unit :=
  emit (LogError keyvals).

(** Lines 117-126. *)
Definition mergeConfigFile (c : Ctx) (logger : Logger) : Act unit :=
  when (IsSet c "hetzner.config")
    (err <- call_readConfig (GetString c "hetzner.config") ;;
     match err with
     | Some e =>
         logError logger
           [("msg", LogText "Failed to read config"); ("err", LogErr e)] ;;
         return_ (Some e)
     | None => pure tt
     end).

(** Lines 128-134. *)
Definition checkOutputFile (logger : Logger) : Act unit :=
  c <- getCfg ;;
  when (String.eqb (File (Target c)) "")
    (logError logger [("msg", LogErr ErrMissingOutputFile)] ;;
     return_ (Some ErrMissingOutputFile)).

(** Lines 136-163. *)
Definition handleCredentialFlags (c : Ctx) (logger : Logger) : Act unit :=
  when (IsSet c "hetzner.username" && IsSet c "hetzner.password")
    (let credentials :=
       mkCredential "default"
         (GetString c "hetzner.username")
         (GetString c "hetzner.password") in
     conf <- getCfg ;;
     setCfg (withCredentials conf (Credentials (Target conf) ++ [credentials])) ;;
     when (String.eqb (Username credentials) "")
       (logError logger [("msg", LogErr ErrMissingHetznerUsername)] ;;
        return_ (Some ErrMissingHetznerUsername)) ;;
     when (String.eqb (Password credentials) "")
       (logError logger [("msg", LogErr ErrMissingHetznerPassword)] ;;
        return_ (Some ErrMissingHetznerPassword))).

(** Lines 165-171. *)
Definition checkAnyCredentials (logger : Logger) : Act unit :=
  c <- getCfg ;;
  when (Nat.eqb (length (Credentials (Target c))) 0)
    (logError logger [("msg", LogErr ErrMissingAnyCredentials)] ;;
     return_ (Some ErrMissingAnyCredentials)).

(** The [Action] of the [server] command, lines 114-174. *)
Definition serverAction (c : Ctx) : Act (option error) :=
  logger <- call_setupLogger ;;
  mergeConfigFile c logger ;;
  checkOutputFile logger ;;
  handleCredentialFlags c logger ;;
  checkAnyCredentials logger ;;
  call_Server logger.

(** Running the action on the configuration [main] holds. *)
Definition start (c0 : Config) : State := mkState c0 [].

Definition outcome {A : Type} (r : Step (option error) * A) : option error :=
  match fst r with
  | Next e => e
  | Return e => e
  end.

Definition runAction (c : Ctx) (c0 : Config) : option error * State :=
  (outcome (serverAction c (start c0)), snd (serverAction c (start c0))).

(** The state in which control leaves a statement at its end, if it
    does. *)
Definition after {A : Type} (m : Act A) (s : State) : option State :=
  match m s with
  | (Next _, s') => Some s'
  | (Return _, _) => None
  end.

(** Program points of the action: after the optional config file merge
    (before line 128), after the output file check (before line 136)
    and after the handling of the credential flags (before line 165). *)
Definition afterConfigMerge (c : Ctx) (c0 : Config) : option State :=
  after (logger <- call_setupLogger ;; mergeConfigFile c logger) (start c0).

Definition afterOutputFileCheck (c : Ctx) (c0 : Config) : option State :=
  after (logger <- call_setupLogger ;;
         mergeConfigFile c logger ;;
         checkOutputFile logger) (start c0).

Definition afterFlagHandling (c : Ctx) (c0 : Config) : option State :=
  after (logger <- call_setupLogger ;;
         mergeConfigFile c logger ;;
         checkOutputFile logger ;;
         handleCredentialFlags c logger) (start c0).

Fixpoint serverCalls (tr : list Event) : list (Config * Logger) :=
  match tr with
  | [] => []
  | CallServer c l :: tr' => (c, l) :: serverCalls tr'
  | _ :: tr' => serverCalls tr'
  end.

Fixpoint readConfigCalls (tr : list Event) : list string :=
  match tr with
  | [] => []
  | CallReadConfig f _ :: tr' => f :: readConfigCalls tr'
  | _ :: tr' => readConfigCalls tr'
  end.

End ServerCommand.

(** ** main *)

(** How the process ends. *)
Inductive Exit : Type :=
| MainReturns
| OsExit (code : Z).

(** Lines 191-193: [if err := app.Run(os.Args); err != nil { os.Exit(1) }]. *)
Definition finish (err : option error) : Exit :=
  match err with
  | Some _ => OsExit 1
  | None => MainReturns
  end.

(** [main] on an invocation of the [server] command: [app.Run] hands back
    what the action returns. *)
Definition mainServer {L : ConfigPackage} {W : World} (inv : Invocation) : Exit :=
  finish (fst (runAction (contextOf inv) (entryConfig inv))).

(** ** Program points and the rest of the action *)

Section Points.

Context {W : World}.

Definition entered (c0 : Config) : State := mkState c0 [CallSetupLogger c0].

Definition readEvent (c : Ctx) (s : State) : Event :=
  CallReadConfig (GetString c "hetzner.config") (cfg s).

Definition readFailed (msg : string) : Event :=
  LogError [("msg", LogText "Failed to read config");
            ("err", LogErr (ErrForeign msg))].

Definition complaint (e : error) : Event := LogError [("msg", LogErr e)].

Definition flagCredential (c : Ctx) : Credential :=
  mkCredential "default"
    (GetString c "hetzner.username") (GetString c "hetzner.password").

Definition appended (c : Ctx) (s : State) : State :=
  mkState
    (withCredentials (cfg s) (Credentials (Target (cfg s)) ++ [flagCredential c]))
    (calls s).

(** The rest of the action from a program point on. *)
Definition fromOutputFileCheck (c : Ctx) (lg : Logger) : Act (option error) :=
  checkOutputFile lg ;;
  handleCredentialFlags c lg ;;
  checkAnyCredentials lg ;;
  call_Server lg.

Definition fromCredentialCheck (lg : Logger) : Act (option error) :=
  checkAnyCredentials lg ;;
  call_Server lg.

End Points.

(** ** Sample invocations *)

Definition envPrefix : string := "PROMETHEUS_HETZNER_".

(** A fresh configuration with every field at Go's zero value. *)
Definition zeroConfig : ConfigPackage :=
  mkConfigPackage
    (mkConfig (mkServer "" "") (mkLogs "" false) (mkTarget "" 0%Z [])).

(** [server] with no flag and no environment variable. *)
Definition noFlags : Invocation := mkInvocation [] [].

(** [server --hetzner.username=robot --hetzner.password=secret] *)
Definition bothFlags : Invocation :=
  mkInvocation [("hetzner.username", StringValue "robot");
                ("hetzner.password", StringValue "secret")] [].

(** [server --hetzner.username= --hetzner.password=secret]: the username
    is given, and empty. *)
Definition emptyUsername : Invocation :=
  mkInvocation [("hetzner.username", StringValue "");
                ("hetzner.password", StringValue "secret")] [].

(** [server --hetzner.username=robot] *)
Definition usernameOnly : Invocation :=
  mkInvocation [("hetzner.username", StringValue "robot")] [].

(** [server --output.file=]: the output file is given, and empty. *)
Definition emptyOutputFile : Invocation :=
  mkInvocation [("output.file", StringValue "")] [].

(** [server --hetzner.username=robot --output.file=] *)
Definition usernameOnlyEmptyOutputFile : Invocation :=
  mkInvocation [("hetzner.username", StringValue "robot");
                ("output.file", StringValue "")] [].

(** [server --hetzner.config=missing.yml] *)
Definition missingConfigFile : Invocation :=
  mkInvocation [("hetzner.config", StringValue "missing.yml")] [].

(** A world to run them in: [readConfig] fails on missing.yml and
    otherwise merges one credential, [action.Server] fails to bind. *)
Definition sampleWorld : World :=
  mkWorld unit (fun _ => tt)
    (fun file c =>
       if String.eqb file "missing.yml"
       then (c, Some "open missing.yml: no such file or directory")
       else (withCredentials c
               (Credentials (Target c) ++ [mkCredential "prod" "robot" "secret"]),
             None))
    (fun c _ => (c, Some "listen tcp 0.0.0.0:9000: bind: address already in use")).

(** ** What a run leaves in the list of calls *)

Section Calls.

Context {W : World}.

(** The entries written through the logger. *)
Fixpoint logEntries (tr : list Event) : list (list (string * LogValue)) :=
  match tr with
  | [] => []
  | LogError kv :: tr' => kv :: logEntries tr'
  | _ :: tr' => logEntries tr'
  end.

(** The configurations [setupLogger] was called on. *)
Fixpoint setupLoggerCalls (tr : list Event) : list Config :=
  match tr with
  | [] => []
  | CallSetupLogger c :: tr' => c :: setupLoggerCalls tr'
  | _ :: tr' => setupLoggerCalls tr'
  end.

(** The credential the action adds on its own: the one of the two flags,
    when both are set. *)
Definition fromFlags (c : Ctx) : list Credential :=
  if IsSet c "hetzner.username" && IsSet c "hetzner.password"
  then [flagCredential c]
  else [].

End Calls.

(** ** The rest of main *)

(** [cli.HelpFlag] and [cli.VersionFlag], main.go lines 179-189: a name
    and its aliases. *)
Definition HelpFlag : string * list string := ("help", ["h"]).

Definition VersionFlag : string * list string := ("version", ["v"]).

(** Every name a flag of the program answers to. *)
Definition flagNames : list string :=
  map Name (globalFlags ++ serverFlags)
  ++ (fst HelpFlag :: snd HelpFlag) ++ (fst VersionFlag :: snd VersionFlag).

(** The flag names the action asks the context for, lines 117-140. *)
Definition queriedFlags : list string :=
  ["hetzner.config"; "hetzner.username"; "hetzner.password"].

Definition destOf (d : Dest) : nat :=
  match d with
  | LogsLevel => 0 | LogsPretty => 1 | ServerAddr => 2
  | ServerPath => 3 | TargetFile => 4 | TargetRefresh => 5
  end.

Fixpoint destinations (fs : list Flag) : list nat :=
  match fs with
  | [] => []
  | f :: fs' =>
      match Destination f with
      | Some d => destOf d :: destinations fs'
      | None => destinations fs'
      end
  end.

Fixpoint distinct (l : list string) : bool :=
  match l with
  | [] => true
  | x :: l' => negb (existsb (String.eqb x) l') && distinct l'
  end.

(** [os.Getenv]: the value of the variable, the empty string when it is
    not there. *)
Definition Getenv (env : list (string * string)) (key : string) : string :=
  match assoc key env with
  | Some v => v
  | None => ""
  end.

(** What [main] calls around the application: [godotenv.Load] changes the
    process environment and may fail; [app.Run] runs the application built
    on the configuration, in an environment, on the arguments. *)
Class Platform : Type := mkPlatform
  { godotenv_Load : string -> list (string * string)
                    -> list (string * string) * option string;
    app_Run : Config -> list (string * string) -> list string -> option error }.

(** [main], lines 29-35 and 191-193: how the process ends, and the env
    files handed to [godotenv.Load]. *)
Definition main {L : ConfigPackage} {P : Platform}
  (env : list (string * string)) (args : list string) : Exit * list string :=
  let cfg := Load in
  let file := Getenv env "PROMETHEUS_HETZNER_ENV_FILE" in
  let (env', loads) :=
    if String.eqb file ""
    then (env, [])
    else (fst (godotenv_Load file env), [file]) in
  (finish (app_Run cfg env' args), loads).

(** A world whose config file holds one credential with nothing in it. *)
Definition blankCredentialWorld : World :=
  mkWorld unit (fun _ => tt)
    (fun _ c => (withCredentials c (Credentials (Target c) ++ [mkCredential "" "" ""]), None))
    (fun c _ => (c, None)).

(** [server --hetzner.config=hetzner.yml] *)
Definition configFileOnly : Invocation :=
  mkInvocation [("hetzner.config", StringValue "hetzner.yml")] [].

(** A platform on which no env file can be read and the application
    fails when the environment names no config file. *)
Definition samplePlatform : Platform :=
  mkPlatform
    (fun file env => (env, Some "open: no such file or directory"))
    (fun _ env _ =>
       match assoc "PROMETHEUS_HETZNER_CONFIG" env with
       | Some _ => None
       | None => Some ErrMissingAnyCredentials
       end).

(** ** The statements of the action, case by case *)

Section Phases.

Context {W : World}.

Lemma call_setupLogger_start (c0 : Config) :
  call_setupLogger (start c0) = (Next (setupLogger c0), entered c0).
Proof. reflexivity. Qed.

Lemma mergeConfigFile_unset c lg s :
  IsSet c "hetzner.config" = false ->
  mergeConfigFile c lg s = (Next tt, s).
Proof. intros H. unfold mergeConfigFile. rewrite H. reflexivity. Qed.

Lemma mergeConfigFile_ok c lg s :
  IsSet c "hetzner.config" = true ->
  snd (readConfig (GetString c "hetzner.config") (cfg s)) = None ->
  mergeConfigFile c lg s =
    (Next tt, mkState (fst (readConfig (GetString c "hetzner.config") (cfg s)))
                      (calls s ++ [readEvent c s])).
Proof.
  intros H E. unfold mergeConfigFile. rewrite H.
  unfold when, bind, call_readConfig, getCfg, emit, setCfg, pure, foreign; simpl.
  rewrite E. reflexivity.
Qed.

Lemma mergeConfigFile_failed c lg s msg :
  IsSet c "hetzner.config" = true ->
  snd (readConfig (GetString c "hetzner.config") (cfg s)) = Some msg ->
  mergeConfigFile c lg s =
    (Return (Some (ErrForeign msg)),
     mkState (fst (readConfig (GetString c "hetzner.config") (cfg s)))
             ((calls s ++ [readEvent c s]) ++ [readFailed msg])).
Proof.
  intros H E. unfold mergeConfigFile. rewrite H.
  unfold when, bind, call_readConfig, getCfg, emit, setCfg, pure, foreign, logError, return_; simpl.
  rewrite E. reflexivity.
Qed.

Lemma checkOutputFile_empty lg s :
  File (Target (cfg s)) = "" ->
  checkOutputFile lg s =
    (Return (Some ErrMissingOutputFile),
     mkState (cfg s) (calls s ++ [complaint ErrMissingOutputFile])).
Proof.
  intros H. unfold checkOutputFile.
  unfold when, bind, getCfg, emit, pure, logError, return_; simpl. rewrite H.
  reflexivity.
Qed.

Lemma checkOutputFile_given lg s :
  File (Target (cfg s)) <> "" ->
  checkOutputFile lg s = (Next tt, s).
Proof.
  intros H. unfold checkOutputFile.
  unfold when, bind, getCfg, emit, pure, logError, return_; simpl.
  destruct (String.eqb_spec (File (Target (cfg s))) ""); [contradiction|reflexivity].
Qed.

Lemma handleCredentialFlags_skip c lg s :
  IsSet c "hetzner.username" && IsSet c "hetzner.password" = false ->
  handleCredentialFlags c lg s = (Next tt, s).
Proof. intros H. unfold handleCredentialFlags. rewrite H. reflexivity. Qed.

Lemma handleCredentialFlags_no_username c lg s :
  IsSet c "hetzner.username" && IsSet c "hetzner.password" = true ->
  GetString c "hetzner.username" = "" ->
  handleCredentialFlags c lg s =
    (Return (Some ErrMissingHetznerUsername),
     mkState (cfg (appended c s))
             (calls s ++ [complaint ErrMissingHetznerUsername])).
Proof.
  intros H U. unfold handleCredentialFlags. rewrite H.
  unfold when, bind, getCfg, emit, setCfg, pure, logError, return_,
    appended, flagCredential; simpl.
  rewrite U. reflexivity.
Qed.

Lemma handleCredentialFlags_no_password c lg s :
  IsSet c "hetzner.username" && IsSet c "hetzner.password" = true ->
  GetString c "hetzner.username" <> "" ->
  GetString c "hetzner.password" = "" ->
  handleCredentialFlags c lg s =
    (Return (Some ErrMissingHetznerPassword),
     mkState (cfg (appended c s))
             (calls s ++ [complaint ErrMissingHetznerPassword])).
Proof.
  intros H U P. unfold handleCredentialFlags. rewrite H.
  unfold when, bind, getCfg, emit, setCfg, pure, logError, return_; simpl.
  destruct (String.eqb_spec (GetString c "hetzner.username") "");
    [contradiction|].
  unfold appended, flagCredential. rewrite P. reflexivity.
Qed.

Lemma handleCredentialFlags_valid c lg s :
  IsSet c "hetzner.username" && IsSet c "hetzner.password" = true ->
  GetString c "hetzner.username" <> "" ->
  GetString c "hetzner.password" <> "" ->
  handleCredentialFlags c lg s = (Next tt, appended c s).
Proof.
  intros H U P. unfold handleCredentialFlags. rewrite H.
  unfold when, bind, getCfg, emit, setCfg, pure, logError, return_; simpl.
  destruct (String.eqb_spec (GetString c "hetzner.username") "");
    [contradiction|].
  destruct (String.eqb_spec (GetString c "hetzner.password") "");
    [contradiction|].
  reflexivity.
Qed.

Lemma checkAnyCredentials_none lg s :
  Credentials (Target (cfg s)) = [] ->
  checkAnyCredentials lg s =
    (Return (Some ErrMissingAnyCredentials),
     mkState (cfg s) (calls s ++ [complaint ErrMissingAnyCredentials])).
Proof.
  intros H. unfold checkAnyCredentials.
  unfold when, bind, getCfg, emit, pure, logError, return_; simpl.
  rewrite H. reflexivity.
Qed.

Lemma checkAnyCredentials_some lg s :
  Credentials (Target (cfg s)) <> [] ->
  checkAnyCredentials lg s = (Next tt, s).
Proof.
  intros H. unfold checkAnyCredentials.
  unfold when, bind, getCfg, emit, pure, logError, return_; simpl.
  destruct (Credentials (Target (cfg s))); [contradiction|reflexivity].
Qed.

Lemma call_Server_eq lg s :
  call_Server lg s =
    (Next (foreign (snd (action_Server (cfg s) lg))),
     mkState (fst (action_Server (cfg s) lg))
             (calls s ++ [CallServer (cfg s) lg])).
Proof. reflexivity. Qed.

Lemma serverAction_from_merge c c0 s1 :
  afterConfigMerge c c0 = Some s1 ->
  serverAction c (start c0) = fromOutputFileCheck c (setupLogger c0) s1.
Proof.
  unfold afterConfigMerge, after, serverAction, fromOutputFileCheck, bind.
  rewrite call_setupLogger_start.
  destruct (mergeConfigFile c (setupLogger c0) (entered c0)) as [[[]|r] s];
    intros H; inversion H; reflexivity.
Qed.

Lemma afterFlagHandling_inv c c0 s2 :
  afterFlagHandling c c0 = Some s2 ->
  exists s1,
    afterConfigMerge c c0 = Some s1 /\
    File (Target (cfg s1)) <> "" /\
    handleCredentialFlags c (setupLogger c0) s1 = (Next tt, s2).
Proof.
  unfold afterFlagHandling, afterConfigMerge, after, bind.
  rewrite call_setupLogger_start.
  destruct (mergeConfigFile c (setupLogger c0) (entered c0)) as [[[]|r] s1];
    [|discriminate].
  destruct (String.eqb_spec (File (Target (cfg s1))) "") as [E|E].
  - rewrite (checkOutputFile_empty _ _ E). discriminate.
  - rewrite (checkOutputFile_given _ _ E).
    destruct (handleCredentialFlags c (setupLogger c0) s1) as [[[]|r] s] eqn:Hh;
      intros H; inversion H; subst. eauto.
Qed.

Lemma serverAction_from_flags c c0 s2 :
  afterFlagHandling c c0 = Some s2 ->
  serverAction c (start c0) = fromCredentialCheck (setupLogger c0) s2.
Proof.
  intros H. destruct (afterFlagHandling_inv _ _ _ H) as (s1 & M & F & Hh).
  rewrite (serverAction_from_merge _ _ _ M).
  unfold fromOutputFileCheck, fromCredentialCheck, bind at 1.
  rewrite (checkOutputFile_given _ _ F).
  unfold bind at 1. rewrite Hh. reflexivity.
Qed.

Lemma serverCalls_app (a b : list Event) :
  serverCalls (a ++ b) = serverCalls a ++ serverCalls b.
Proof.
  induction a as [|e a IH]; [reflexivity|].
  destruct e; simpl; rewrite IH; reflexivity.
Qed.

Lemma readConfigCalls_app (a b : list Event) :
  readConfigCalls (a ++ b) = readConfigCalls a ++ readConfigCalls b.
Proof.
  induction a as [|e a IH]; [reflexivity|].
  destruct e; simpl; rewrite IH; reflexivity.
Qed.

Lemma afterConfigMerge_inv c c0 s1 :
  afterConfigMerge c c0 = Some s1 ->
  (IsSet c "hetzner.config" = false /\ s1 = entered c0) \/
  (IsSet c "hetzner.config" = true /\
   snd (readConfig (GetString c "hetzner.config") c0) = None /\
   s1 = mkState (fst (readConfig (GetString c "hetzner.config") c0))
                [CallSetupLogger c0;
                 CallReadConfig (GetString c "hetzner.config") c0]).
Proof.
  unfold afterConfigMerge, after, bind. rewrite call_setupLogger_start.
  destruct (IsSet c "hetzner.config") eqn:S.
  - destruct (snd (readConfig (GetString c "hetzner.config") (cfg (entered c0))))
      as [msg|] eqn:R.
    + rewrite (mergeConfigFile_failed _ _ _ _ S R). discriminate.
    + rewrite (mergeConfigFile_ok _ _ _ S R). intros H; inversion H. auto.
  - rewrite (mergeConfigFile_unset _ _ _ S). intros H; inversion H. auto.
Qed.

Lemma afterConfigMerge_no_server c c0 s1 :
  afterConfigMerge c c0 = Some s1 -> serverCalls (calls s1) = [].
Proof.
  intros H. destruct (afterConfigMerge_inv _ _ _ H) as [[_ ->]|(_ & _ & ->)];
    reflexivity.
Qed.

Lemma handleCredentialFlags_next c lg s s' :
  handleCredentialFlags c lg s = (Next tt, s') ->
  (IsSet c "hetzner.username" && IsSet c "hetzner.password" = false /\ s' = s) \/
  (IsSet c "hetzner.username" && IsSet c "hetzner.password" = true /\
   GetString c "hetzner.username" <> "" /\
   GetString c "hetzner.password" <> "" /\
   s' = appended c s).
Proof.
  destruct (IsSet c "hetzner.username" && IsSet c "hetzner.password") eqn:B.
  - destruct (String.eqb_spec (GetString c "hetzner.username") "") as [U|U].
    { rewrite (handleCredentialFlags_no_username _ _ _ B U). discriminate. }
    destruct (String.eqb_spec (GetString c "hetzner.password") "") as [P|P].
    { rewrite (handleCredentialFlags_no_password _ _ _ B U P). discriminate. }
    rewrite (handleCredentialFlags_valid _ _ _ B U P).
    intros H; inversion H. right. auto.
  - rewrite (handleCredentialFlags_skip _ _ _ B).
    intros H; inversion H. left. auto.
Qed.

Lemma afterFlagHandling_no_server c c0 s2 :
  afterFlagHandling c c0 = Some s2 -> serverCalls (calls s2) = [].
Proof.
  intros H. destruct (afterFlagHandling_inv _ _ _ H) as (s1 & M & _ & Hh).
  apply afterConfigMerge_no_server in M.
  destruct (handleCredentialFlags_next _ _ _ _ Hh) as [[_ ->]|(_ & _ & _ & ->)];
    exact M.
Qed.

Lemma dispatch_result c c0 s2 :
  afterFlagHandling c c0 = Some s2 ->
  Credentials (Target (cfg s2)) <> [] ->
  fst (runAction c c0)
    = foreign (snd (action_Server (cfg s2) (setupLogger c0))).
Proof.
  intros H2 N. unfold runAction.
  rewrite (serverAction_from_flags _ _ _ H2).
  unfold fromCredentialCheck, bind.
  rewrite (checkAnyCredentials_some _ _ N), call_Server_eq. reflexivity.
Qed.

(** C1, amended: when the optional config file read succeeds (or no config
  file is set), [cfg.Target.File] is non-empty, the values of
  hetzner.username and hetzner.password are both non-empty whenever both
  flags are set, and [cfg.Target.Credentials] is non-empty after flag
  handling (the credentials the merge left, followed by the credential of
  the flags when both are set), the action calls
  [action.Server(cfg, logger)] exactly once, on that configuration and the
  logger of [setupLogger], and returns its result. *)
Theorem C1_dispatch c c0 s1 :
  afterConfigMerge c c0 = Some s1 ->
  File (Target (cfg s1)) <> "" ->
  (IsSet c "hetzner.username" && IsSet c "hetzner.password" = true ->
   GetString c "hetzner.username" <> "" /\
   GetString c "hetzner.password" <> "") ->
  Credentials (Target (cfg s1)) ++ fromFlags c <> [] ->
  exists s2,
    afterFlagHandling c c0 = Some s2 /\
    Credentials (Target (cfg s2)) = Credentials (Target (cfg s1)) ++ fromFlags c /\
    fst (runAction c c0)
      = foreign (snd (action_Server (cfg s2) (setupLogger c0))) /\
    serverCalls (calls (snd (runAction c c0))) = [(cfg s2, setupLogger c0)].
Proof.
  intros M F V N.
  assert (A : exists s2,
             handleCredentialFlags c (setupLogger c0) s1 = (Next tt, s2) /\
             Credentials (Target (cfg s2))
               = Credentials (Target (cfg s1)) ++ fromFlags c).
  { unfold fromFlags in *.
    destruct (IsSet c "hetzner.username" && IsSet c "hetzner.password") eqn:B.
    - destruct (V eq_refl) as [U P]. exists (appended c s1).
      split; [exact (handleCredentialFlags_valid _ _ _ B U P)|reflexivity].
    - exists s1. split; [exact (handleCredentialFlags_skip _ _ _ B)|].
      rewrite app_nil_r. reflexivity. }
  destruct A as (s2 & Hh & E). exists s2.
  assert (H2 : afterFlagHandling c c0 = Some s2).
  { unfold afterFlagHandling, after, bind.
    unfold afterConfigMerge, after, bind in M.
    rewrite call_setupLogger_start in *.
    destruct (mergeConfigFile c (setupLogger c0) (entered c0)) as [[[]|r] s];
      inversion M; subst.
    rewrite (checkOutputFile_given _ _ F), Hh. reflexivity. }
  rewrite <- E in N.
  split; [exact H2|]. split; [exact E|].
  split; [exact (dispatch_result _ _ _ H2 N)|].
  unfold runAction. rewrite (serverAction_from_flags _ _ _ H2).
  unfold fromCredentialCheck, bind.
  rewrite (checkAnyCredentials_some _ _ N), call_Server_eq. simpl.
  rewrite serverCalls_app, (afterFlagHandling_no_server _ _ _ H2).
  reflexivity.
Qed.

(** C2: when, after the optional config file merge and flag handling
  (the program point before line 165), [cfg.Target.Credentials] is empty,
  the action returns [ErrMissingAnyCredentials], whose text is
  "Missing any credentials", and [action.Server] is never called. *)
Theorem C2_no_credentials c c0 s2 :
  afterFlagHandling c c0 = Some s2 ->
  Credentials (Target (cfg s2)) = [] ->
  fst (runAction c c0) = Some ErrMissingAnyCredentials /\
  Error ErrMissingAnyCredentials = "Missing any credentials" /\
  serverCalls (calls (snd (runAction c c0))) = [].
Proof.
  intros H2 E. unfold runAction.
  rewrite (serverAction_from_flags _ _ _ H2).
  unfold fromCredentialCheck, bind.
  rewrite (checkAnyCredentials_none _ _ E). simpl.
  rewrite serverCalls_app, (afterFlagHandling_no_server _ _ _ H2).
  repeat split; reflexivity.
Qed.

Lemma andb_both (a b : bool) : a = true -> b = true -> a && b = true.
Proof. intros -> ->. reflexivity. Qed.

(** C3: when both credential flags are set and the output file check
  passed: an empty username gives [ErrMissingHetznerUsername]; otherwise
  an empty password gives [ErrMissingHetznerPassword]; otherwise the
  credential with project "default" and those values is appended to
  [cfg.Target.Credentials] and the action goes on to the credential
  check, which now passes, and into [action.Server]. *)
Theorem C3_credential_flags c c0 s1 :
  afterConfigMerge c c0 = Some s1 ->
  File (Target (cfg s1)) <> "" ->
  IsSet c "hetzner.username" = true ->
  IsSet c "hetzner.password" = true ->
  (GetString c "hetzner.username" = "" ->
   fst (runAction c c0) = Some ErrMissingHetznerUsername) /\
  (GetString c "hetzner.username" <> "" ->
   GetString c "hetzner.password" = "" ->
   fst (runAction c c0) = Some ErrMissingHetznerPassword) /\
  (GetString c "hetzner.username" <> "" ->
   GetString c "hetzner.password" <> "" ->
   exists s2,
     afterFlagHandling c c0 = Some s2 /\
     Credentials (Target (cfg s2))
       = Credentials (Target (cfg s1)) ++
         [mkCredential "default" (GetString c "hetzner.username")
                                 (GetString c "hetzner.password")] /\
     calls s2 = calls s1 /\
     fst (runAction c c0)
       = foreign (snd (action_Server (cfg s2) (setupLogger c0)))) /\
  Error ErrMissingHetznerUsername = "Missing required hetzner.username" /\
  Error ErrMissingHetznerPassword = "Missing required hetzner.password".
Proof.
  intros M F SU SP. pose proof (andb_both _ _ SU SP) as B.
  pose proof (serverAction_from_merge _ _ _ M) as R.
  unfold fromOutputFileCheck, bind in R.
  rewrite (checkOutputFile_given _ _ F) in R.
  repeat split.
  - intros U. unfold runAction. rewrite R.
    rewrite (handleCredentialFlags_no_username _ _ _ B U). reflexivity.
  - intros U P. unfold runAction. rewrite R.
    rewrite (handleCredentialFlags_no_password _ _ _ B U P). reflexivity.
  - intros U P. exists (appended c s1).
    assert (A : afterFlagHandling c c0 = Some (appended c s1)).
    { unfold afterFlagHandling, after, bind.
      unfold afterConfigMerge, after, bind in M.
      destruct (call_setupLogger (start c0)) as [[lg|r] s0] eqn:L;
        rewrite call_setupLogger_start in L; inversion L; subst.
      destruct (mergeConfigFile c (setupLogger c0) (entered c0)) as [[[]|r] s];
        inversion M; subst.
      rewrite (checkOutputFile_given _ _ F).
      rewrite (handleCredentialFlags_valid _ _ _ B U P). reflexivity. }
    repeat split; [exact A|].
    apply dispatch_result with (s2 := appended c s1); [exact A|].
    simpl. destruct (Credentials (Target (cfg s1))); discriminate.
Qed.

(** C4: when, after the optional config file merge, [cfg.Target.File] is
  the empty string, the action returns [ErrMissingOutputFile], whose text
  is "Missing path for output.file"; it stops there, with the
  configuration as the merge left it and one more log entry, and
  [action.Server] is never called. *)
Theorem C4_missing_output_file c c0 s1 :
  afterConfigMerge c c0 = Some s1 ->
  File (Target (cfg s1)) = "" ->
  runAction c c0
    = (Some ErrMissingOutputFile,
       mkState (cfg s1) (calls s1 ++ [LogError [("msg", LogErr ErrMissingOutputFile)]])) /\
  serverCalls (calls (snd (runAction c c0))) = [] /\
  Error ErrMissingOutputFile = "Missing path for output.file".
Proof.
  intros M E. unfold runAction.
  rewrite (serverAction_from_merge _ _ _ M).
  unfold fromOutputFileCheck, bind.
  rewrite (checkOutputFile_empty _ _ E). simpl.
  rewrite serverCalls_app, (afterConfigMerge_no_server _ _ _ M).
  repeat split; reflexivity.
Qed.

(** Every path of the action, by cases on the conditions it tests. *)
Ltac walk :=
  unfold runAction, outcome, serverAction, mergeConfigFile, checkOutputFile,
    handleCredentialFlags, checkAnyCredentials, call_Server, call_readConfig,
    call_setupLogger, logError, when, bind, pure, return_, getCfg, setCfg,
    emit, start;
  simpl.

Ltac branch :=
  repeat match goal with
    | |- context [if ?b then _ else _] => destruct b eqn:?; simpl
    | |- context [match ?x with Some _ => _ | None => _ end] =>
        destruct x eqn:?; simpl
    end.

(** C5: when [hetzner.config] is set and [readConfig] fails, the action
  returns that error at once: the only calls are [setupLogger],
  [readConfig] and the "Failed to read config" log entry, and the
  configuration is what [readConfig] left.  When [hetzner.config] is not
  set, [readConfig] is not called on any path. *)
Theorem C5_config_read c c0 :
  (IsSet c "hetzner.config" = true ->
   forall msg,
     snd (readConfig (GetString c "hetzner.config") c0) = Some msg ->
     runAction c c0
       = (Some (ErrForeign msg),
          mkState (fst (readConfig (GetString c "hetzner.config") c0))
            [CallSetupLogger c0;
             CallReadConfig (GetString c "hetzner.config") c0;
             LogError [("msg", LogText "Failed to read config");
                       ("err", LogErr (ErrForeign msg))]])) /\
  (IsSet c "hetzner.config" = false ->
   readConfigCalls (calls (snd (runAction c c0))) = []).
Proof.
  split.
  - intros S msg R. walk. rewrite S. simpl. rewrite R. reflexivity.
  - intros S. walk. rewrite S. simpl. branch; reflexivity.
Qed.

Lemma foreign_username e : foreign e <> Some ErrMissingHetznerUsername.
Proof. destruct e; discriminate. Qed.

Lemma foreign_password e : foreign e <> Some ErrMissingHetznerPassword.
Proof. destruct e; discriminate. Qed.

Lemma afterConfigMerge_none c c0 :
  afterConfigMerge c c0 = None ->
  exists msg, fst (runAction c c0) = Some (ErrForeign msg).
Proof.
  unfold afterConfigMerge, after, runAction, serverAction, bind.
  rewrite call_setupLogger_start.
  destruct (IsSet c "hetzner.config") eqn:S.
  - destruct (snd (readConfig (GetString c "hetzner.config") (cfg (entered c0))))
      as [msg|] eqn:R.
    + rewrite (mergeConfigFile_failed _ _ _ _ S R). intros _. exists msg.
      reflexivity.
    + rewrite (mergeConfigFile_ok _ _ _ S R). discriminate.
  - rewrite (mergeConfigFile_unset _ _ _ S). discriminate.
Qed.

(** C8: with both credential flags set, the credential flag block leaves
  the credential built from them at the end of [cfg.Target.Credentials]
  however it is left; and every run that returns
  [ErrMissingHetznerUsername] or [ErrMissingHetznerPassword] ends with
  the credentials of the config file merge followed by that credential,
  whose username or password is empty. *)
Theorem C8_appended_before_checks c :
  (IsSet c "hetzner.username" = true ->
   IsSet c "hetzner.password" = true ->
   forall lg s,
     Credentials (Target (cfg (snd (handleCredentialFlags c lg s))))
       = Credentials (Target (cfg s)) ++
         [mkCredential "default" (GetString c "hetzner.username")
                                 (GetString c "hetzner.password")]) /\
  (forall c0,
     fst (runAction c c0) = Some ErrMissingHetznerUsername \/
     fst (runAction c c0) = Some ErrMissingHetznerPassword ->
     exists s1,
       afterConfigMerge c c0 = Some s1 /\
       Credentials (Target (cfg (snd (runAction c c0))))
         = Credentials (Target (cfg s1)) ++
           [mkCredential "default" (GetString c "hetzner.username")
                                   (GetString c "hetzner.password")] /\
       (GetString c "hetzner.username" = "" \/
        GetString c "hetzner.password" = "")).
Proof.
  split.
  - intros SU SP lg s. pose proof (andb_both _ _ SU SP) as B.
    destruct (String.eqb_spec (GetString c "hetzner.username") "") as [U|U].
    { rewrite (handleCredentialFlags_no_username _ _ _ B U). reflexivity. }
    destruct (String.eqb_spec (GetString c "hetzner.password") "") as [P|P].
    { rewrite (handleCredentialFlags_no_password _ _ _ B U P). reflexivity. }
    rewrite (handleCredentialFlags_valid _ _ _ B U P). reflexivity.
  - intros c0 H.
    destruct (afterConfigMerge c c0) as [s1|] eqn:M.
    2:{ destruct (afterConfigMerge_none _ _ M) as [msg E].
        rewrite E in H. destruct H; discriminate. }
    exists s1. split; [reflexivity|].
    unfold runAction in *. rewrite (serverAction_from_merge _ _ _ M) in *.
    unfold fromOutputFileCheck, bind in *.
    destruct (String.eqb_spec (File (Target (cfg s1))) "") as [F|F].
    { rewrite (checkOutputFile_empty _ _ F) in H. destruct H; discriminate. }
    rewrite (checkOutputFile_given _ _ F) in *.
    destruct (IsSet c "hetzner.username" && IsSet c "hetzner.password") eqn:B.
    + destruct (String.eqb_spec (GetString c "hetzner.username") "") as [U|U].
      { rewrite (handleCredentialFlags_no_username _ _ _ B U).
        split; [reflexivity|left; exact U]. }
      destruct (String.eqb_spec (GetString c "hetzner.password") "") as [P|P].
      { rewrite (handleCredentialFlags_no_password _ _ _ B U P).
        split; [reflexivity|right; exact P]. }
      exfalso. rewrite (handleCredentialFlags_valid _ _ _ B U P) in H.
      rewrite checkAnyCredentials_some in H.
      * rewrite call_Server_eq in H. unfold outcome in H. simpl in H.
        destruct H as [H|H];
          [exact (foreign_username _ H)|exact (foreign_password _ H)].
      * simpl. destruct (Credentials (Target (cfg s1))); discriminate.
    + exfalso. rewrite (handleCredentialFlags_skip _ _ _ B) in H.
      destruct (Credentials (Target (cfg s1))) eqn:E.
      * rewrite (checkAnyCredentials_none _ _ E) in H.
        destruct H; discriminate.
      * rewrite checkAnyCredentials_some in H by (rewrite E; discriminate).
        rewrite call_Server_eq in H. unfold outcome in H. simpl in H.
        destruct H as [H|H];
          [exact (foreign_username _ H)|exact (foreign_password _ H)].
Qed.

Lemma xorb_not_both (a b : bool) : xorb a b = true -> a && b = false.
Proof. destruct a, b; simpl; congruence. Qed.

(** C9, amended: when exactly one of the two credential flags is set, the
  credential flag block changes nothing; and if the config file merge was
  passed with no credentials and a non-empty [cfg.Target.File], the
  action returns [ErrMissingAnyCredentials] with the configuration of the
  merge, not one of the two specific errors. *)
Theorem C9_single_flag c :
  xorb (IsSet c "hetzner.username") (IsSet c "hetzner.password") = true ->
  (forall lg s, handleCredentialFlags c lg s = (Next tt, s)) /\
  (forall c0 s1,
     afterConfigMerge c c0 = Some s1 ->
     File (Target (cfg s1)) <> "" ->
     Credentials (Target (cfg s1)) = [] ->
     runAction c c0
       = (Some ErrMissingAnyCredentials,
          mkState (cfg s1)
            (calls s1 ++ [LogError [("msg", LogErr ErrMissingAnyCredentials)]]))).
Proof.
  intros X. pose proof (xorb_not_both _ _ X) as B. split.
  - intros lg s. exact (handleCredentialFlags_skip _ _ _ B).
  - intros c0 s1 M F E. unfold runAction.
    rewrite (serverAction_from_merge _ _ _ M).
    unfold fromOutputFileCheck, bind.
    rewrite (checkOutputFile_given _ _ F), (handleCredentialFlags_skip _ _ _ B).
    rewrite (checkAnyCredentials_none _ _ E). reflexivity.
Qed.

End Phases.

(** C10: [main] calls [os.Exit(1)] whenever [app.Run] returns an error,
    whatever the error, and returns normally when it returns nil; so every
    error the [server] action returns ends the process with status 1. *)
Theorem C10_exit_status :
  (forall e, finish (Some e) = OsExit 1) /\
  finish None = MainReturns /\
  (forall (L : ConfigPackage) (W : World) inv,
     mainServer inv =
       match fst (runAction (contextOf inv) (entryConfig inv)) with
       | Some _ => OsExit 1
       | None => MainReturns
       end).
Proof. repeat split. Qed.

Lemma load_store_other d d' v conf :
  d <> d' -> load d (store d' v conf) = load d conf.
Proof. intros N. destruct d, d', v; try reflexivity; contradiction. Qed.

Lemma load_store_same d v conf :
  sameKind v (load d conf) = true -> load d (store d v conf) = v.
Proof. destruct d, v; simpl; intros H; try discriminate; reflexivity. Qed.

Lemma received_resolve {L : ConfigPackage} inv f :
  In f serverFlags ->
  sameKind (resolve inv f) (Default f) = true ->
  received inv f = resolve inv f.
Proof.
  intros I. simpl in I.
  destruct I as [<-|[<-|[<-|[<-|[<-|[<-|[<-|[]]]]]]]];
    unfold received; cbn [Destination Name Default]; intros K;
    try (unfold entryConfig, globalFlags, serverFlags;
         cbn [fold_left app]; unfold bind1; cbn [Destination];
         rewrite ?load_store_other by discriminate;
         apply load_store_same;
         destruct (resolve inv _); try discriminate K; reflexivity);
    unfold contextOf; cbn [GetString]; simpl findFlag; cbv beta iota;
    destruct (resolve inv _); try discriminate K; reflexivity.
Qed.

Lemma fromEnv_single var env v :
  assoc var env = Some v -> v <> StringValue "" -> fromEnv [var] env = Some v.
Proof.
  intros A N. simpl. rewrite A.
  destruct v as [[|a t]|n|b]; try reflexivity. contradiction.
Qed.

Lemma fromEnv_none vars env :
  (forall var, In var vars ->
     assoc var env = None \/ assoc var env = Some (StringValue "")) ->
  fromEnv vars env = None.
Proof.
  induction vars as [|v vars IH]; intros H; [reflexivity|].
  simpl. destruct (H v (or_introl eq_refl)) as [E|E]; rewrite E;
    apply IH; intros var I; apply H; right; exact I.
Qed.

Lemma serverFlags_single_variable f var :
  In f serverFlags -> In var (EnvVars f) -> EnvVars f = [var].
Proof.
  intros I. simpl in I.
  destruct I as [<-|[<-|[<-|[<-|[<-|[<-|[<-|[]]]]]]]];
    simpl; intros [<-|[]]; reflexivity.
Qed.

Example empty_variable_is_not_set :
  IsSet (contextOf (mkInvocation [] [("PROMETHEUS_HETZNER_CONFIG", StringValue "")]))
        "hetzner.config" = false.
Proof. reflexivity. Qed.

Lemma sameKind_refl v : sameKind v v = true.
Proof. destruct v; reflexivity. Qed.

(** C6: every option of the [server] command has a flag name and an
    environment variable starting with PROMETHEUS_HETZNER_, and both reach
    the action: what it has of the option is the command line value when
    one is given, else the value of the environment variable when that is
    present with a text, else the default: web.address "0.0.0.0:9000",
    web.path "/metrics", output.file "/etc/prometheus/hetzner.json",
    output.refresh 30, and the empty string for hetzner.username,
    hetzner.password and hetzner.config. *)
Theorem C6_server_flags :
  map (fun f => (Name f, EnvVars f, Default f)) serverFlags
    = [ ("web.address", ["PROMETHEUS_HETZNER_WEB_ADDRESS"], StringValue "0.0.0.0:9000");
        ("web.path", ["PROMETHEUS_HETZNER_WEB_PATH"], StringValue "/metrics");
        ("output.file", ["PROMETHEUS_HETZNER_OUTPUT_FILE"],
         StringValue "/etc/prometheus/hetzner.json");
        ("output.refresh", ["PROMETHEUS_HETZNER_OUTPUT_REFRESH"], IntValue 30);
        ("hetzner.username", ["PROMETHEUS_HETZNER_USERNAME"], StringValue "");
        ("hetzner.password", ["PROMETHEUS_HETZNER_PASSWORD"], StringValue "");
        ("hetzner.config", ["PROMETHEUS_HETZNER_CONFIG"], StringValue "") ] /\
  forallb (fun f => negb (String.eqb (Name f) "") &&
                    negb (Nat.eqb (length (EnvVars f)) 0) &&
                    forallb (String.prefix envPrefix) (EnvVars f))
          serverFlags = true /\
  (forall (L : ConfigPackage) inv f,
     In f serverFlags ->
     (forall v,
        assoc (Name f) (cmdline inv) = Some v ->
        sameKind v (Default f) = true ->
        received inv f = v) /\
     (forall var v,
        assoc (Name f) (cmdline inv) = None ->
        In var (EnvVars f) ->
        assoc var (environ inv) = Some v ->
        v <> StringValue "" ->
        sameKind v (Default f) = true ->
        received inv f = v) /\
     (assoc (Name f) (cmdline inv) = None ->
      (forall var,
         In var (EnvVars f) ->
         assoc var (environ inv) = None \/
         assoc var (environ inv) = Some (StringValue "")) ->
      received inv f = Default f)).
Proof.
  split; [reflexivity|]. split; [reflexivity|].
  intros L inv f I. split; [|split].
  - intros v C K.
    assert (R : resolve inv f = v) by (unfold resolve; rewrite C; reflexivity).
    rewrite <- R in K |- *. exact (received_resolve inv f I K).
  - intros var v C V A N K.
    assert (R : resolve inv f = v).
    { unfold resolve. rewrite C, (serverFlags_single_variable _ _ I V).
      rewrite (fromEnv_single _ _ _ A N). reflexivity. }
    rewrite <- R in K |- *. exact (received_resolve inv f I K).
  - intros C E.
    assert (R : resolve inv f = Default f).
    { unfold resolve. rewrite C, (fromEnv_none _ _ E). reflexivity. }
    rewrite <- R. apply (received_resolve inv f I).
    rewrite R. apply sameKind_refl.
Qed.

(** ** The theorems at the sample invocations *)

Lemma C1_dispatch_witness :
  afterConfigMerge (W := sampleWorld) (contextOf bothFlags)
    (entryConfig (L := zeroConfig) bothFlags)
    = Some (entered (entryConfig (L := zeroConfig) bothFlags)) /\
  exists s2 : @State sampleWorld,
    afterFlagHandling (W := sampleWorld) (contextOf bothFlags)
      (entryConfig (L := zeroConfig) bothFlags) = Some s2 /\
    Credentials (Target (cfg s2))
      = [] ++ fromFlags (contextOf bothFlags) /\
    fst (runAction (W := sampleWorld) (contextOf bothFlags)
           (entryConfig (L := zeroConfig) bothFlags))
      = foreign (snd (action_Server (World := sampleWorld) (cfg s2) tt)) /\
    serverCalls
      (calls (snd (runAction (W := sampleWorld) (contextOf bothFlags)
                     (entryConfig (L := zeroConfig) bothFlags))))
      = [(cfg s2, tt)].
Proof.
  split; [reflexivity|].
  apply (@C1_dispatch sampleWorld (contextOf bothFlags)
           (entryConfig (L := zeroConfig) bothFlags)
           (entered (entryConfig (L := zeroConfig) bothFlags))).
  - reflexivity.
  - simpl. discriminate.
  - intros _. split; simpl; discriminate.
  - simpl. discriminate.
Defined.

(** C1 as stated fails: with no config file, the default output file and
    both credential flags set, the username to the empty string, the
    credentials are non-empty after flag handling, and the action returns
    [ErrMissingHetznerUsername] without calling [action.Server]. *)
Lemma C1_as_stated_counterexample :
  IsSet (contextOf emptyUsername) "hetzner.config" = false /\
  File (Target (entryConfig (L := zeroConfig) emptyUsername))
    = "/etc/prometheus/hetzner.json" /\
  Credentials
    (Target (cfg (snd (handleCredentialFlags (W := sampleWorld)
                         (contextOf emptyUsername) tt
                         (entered (entryConfig (L := zeroConfig) emptyUsername))))))
    = [mkCredential "default" "" "secret"] /\
  Credentials
    (Target (cfg (snd (runAction (W := sampleWorld) (contextOf emptyUsername)
                         (entryConfig (L := zeroConfig) emptyUsername)))))
    = [mkCredential "default" "" "secret"] /\
  fst (runAction (W := sampleWorld) (contextOf emptyUsername)
         (entryConfig (L := zeroConfig) emptyUsername))
    = Some ErrMissingHetznerUsername /\
  serverCalls
    (calls (snd (runAction (W := sampleWorld) (contextOf emptyUsername)
                   (entryConfig (L := zeroConfig) emptyUsername)))) = [].
Proof. repeat split. Qed.

Lemma C2_no_credentials_witness :
  afterFlagHandling (W := sampleWorld) (contextOf noFlags) (entryConfig (L := zeroConfig) noFlags)
    = Some (entered (entryConfig (L := zeroConfig) noFlags)) /\
  fst (runAction (W := sampleWorld) (contextOf noFlags) (entryConfig (L := zeroConfig) noFlags))
    = Some ErrMissingAnyCredentials.
Proof.
  split; [reflexivity|].
  apply (@C2_no_credentials sampleWorld (contextOf noFlags) (entryConfig (L := zeroConfig) noFlags)
           (entered (entryConfig (L := zeroConfig) noFlags))); reflexivity.
Defined.

Lemma C3_credential_flags_witness :
  IsSet (contextOf emptyUsername) "hetzner.username" = true /\
  IsSet (contextOf emptyUsername) "hetzner.password" = true /\
  fst (runAction (W := sampleWorld) (contextOf emptyUsername) (entryConfig (L := zeroConfig) emptyUsername))
    = Some ErrMissingHetznerUsername.
Proof.
  split; [reflexivity|]. split; [reflexivity|].
  apply (@C3_credential_flags sampleWorld (contextOf emptyUsername)
           (entryConfig (L := zeroConfig) emptyUsername) (entered (entryConfig (L := zeroConfig) emptyUsername)));
    try reflexivity.
  simpl. discriminate.
Defined.

Lemma C4_missing_output_file_witness :
  File (Target (entryConfig (L := zeroConfig) emptyOutputFile)) = "" /\
  fst (runAction (W := sampleWorld) (contextOf emptyOutputFile)
         (entryConfig (L := zeroConfig) emptyOutputFile)) = Some ErrMissingOutputFile.
Proof.
  split; [reflexivity|].
  destruct (@C4_missing_output_file sampleWorld (contextOf emptyOutputFile)
              (entryConfig (L := zeroConfig) emptyOutputFile) (entered (entryConfig (L := zeroConfig) emptyOutputFile)))
    as [R _]; [reflexivity|reflexivity|].
  rewrite R. reflexivity.
Defined.

Lemma C5_config_read_witness :
  fst (runAction (W := sampleWorld) (contextOf missingConfigFile)
         (entryConfig (L := zeroConfig) missingConfigFile))
    = Some (ErrForeign "open missing.yml: no such file or directory") /\
  readConfigCalls
    (calls (snd (runAction (W := sampleWorld) (contextOf bothFlags)
                   (entryConfig (L := zeroConfig) bothFlags)))) = [].
Proof.
  split.
  - rewrite (proj1 (@C5_config_read sampleWorld (contextOf missingConfigFile)
                      (entryConfig (L := zeroConfig) missingConfigFile))
               eq_refl "open missing.yml: no such file or directory" eq_refl).
    reflexivity.
  - apply (proj2 (@C5_config_read sampleWorld (contextOf bothFlags)
                    (entryConfig (L := zeroConfig) bothFlags))).
    reflexivity.
Defined.

Lemma C6_server_flags_witness :
  received (L := zeroConfig)
    (mkInvocation [("web.path", StringValue "/probe")]
                  [("PROMETHEUS_HETZNER_WEB_PATH", StringValue "/env")])
    (mkFlag "web.path" (StringValue "/metrics")
       "Path to bind the metrics server"
       ["PROMETHEUS_HETZNER_WEB_PATH"] (Some ServerPath))
    = StringValue "/probe" /\
  received (L := zeroConfig)
    (mkInvocation [] [("PROMETHEUS_HETZNER_USERNAME", StringValue "robot")])
    (mkFlag "hetzner.username" (StringValue "")
       "Username for the Hetzner API"
       ["PROMETHEUS_HETZNER_USERNAME"] None)
    = StringValue "robot" /\
  received (L := zeroConfig)
    (mkInvocation [] [("PROMETHEUS_HETZNER_OUTPUT_FILE", StringValue "")])
    (mkFlag "output.file" (StringValue "/etc/prometheus/hetzner.json")
       "Path to write the file_sd config"
       ["PROMETHEUS_HETZNER_OUTPUT_FILE"] (Some TargetFile))
    = StringValue "/etc/prometheus/hetzner.json".
Proof.
  destruct C6_server_flags as (_ & _ & Bound).
  split; [|split].
  - apply (proj1 (Bound zeroConfig _ _ (or_intror (or_introl eq_refl))));
      reflexivity.
  - apply (proj1 (proj2 (Bound zeroConfig _ _
                           (or_intror (or_intror (or_intror (or_intror
                              (or_introl eq_refl)))))))
             "PROMETHEUS_HETZNER_USERNAME");
      [reflexivity|left; reflexivity|reflexivity|discriminate|reflexivity].
  - apply (proj2 (proj2 (Bound zeroConfig _ _
                           (or_intror (or_intror (or_introl eq_refl))))));
      [reflexivity|].
    intros var [<-|[]]. right. reflexivity.
Defined.

Lemma C8_appended_before_checks_witness :
  fst (runAction (W := sampleWorld) (contextOf emptyUsername) (entryConfig (L := zeroConfig) emptyUsername))
    = Some ErrMissingHetznerUsername /\
  Credentials
    (Target (cfg (snd (runAction (W := sampleWorld) (contextOf emptyUsername)
                         (entryConfig (L := zeroConfig) emptyUsername)))))
    = [mkCredential "default" "" "secret"].
Proof.
  split; [reflexivity|].
  destruct (proj2 (@C8_appended_before_checks sampleWorld (contextOf emptyUsername))
              (entryConfig (L := zeroConfig) emptyUsername) (or_introl eq_refl))
    as (s1 & M & E & _).
  rewrite E. inversion M. reflexivity.
Defined.

Lemma C9_single_flag_witness :
  xorb (IsSet (contextOf usernameOnly) "hetzner.username")
       (IsSet (contextOf usernameOnly) "hetzner.password") = true /\
  fst (runAction (W := sampleWorld) (contextOf usernameOnly) (entryConfig (L := zeroConfig) usernameOnly))
    = Some ErrMissingAnyCredentials.
Proof.
  split; [reflexivity|].
  rewrite (proj2 (@C9_single_flag sampleWorld (contextOf usernameOnly) eq_refl)
             (entryConfig (L := zeroConfig) usernameOnly) (entered (entryConfig (L := zeroConfig) usernameOnly))).
  - reflexivity.
  - reflexivity.
  - simpl. discriminate.
  - reflexivity.
Defined.

(** C9 as stated fails: with only [hetzner.username] set, no credentials
    from a config file and [output.file] set to the empty string, the
    action returns [ErrMissingOutputFile], not [ErrMissingAnyCredentials]. *)
Lemma C9_as_stated_counterexample :
  xorb (IsSet (contextOf usernameOnlyEmptyOutputFile) "hetzner.username")
       (IsSet (contextOf usernameOnlyEmptyOutputFile) "hetzner.password") = true /\
  IsSet (contextOf usernameOnlyEmptyOutputFile) "hetzner.config" = false /\
  Credentials (Target (entryConfig (L := zeroConfig) usernameOnlyEmptyOutputFile)) = [] /\
  fst (runAction (W := sampleWorld) (contextOf usernameOnlyEmptyOutputFile)
         (entryConfig (L := zeroConfig) usernameOnlyEmptyOutputFile))
    = Some ErrMissingOutputFile /\
  fst (runAction (W := sampleWorld) (contextOf usernameOnlyEmptyOutputFile)
         (entryConfig (L := zeroConfig) usernameOnlyEmptyOutputFile))
    <> Some ErrMissingAnyCredentials.
Proof.
  repeat split; try reflexivity. discriminate.
Qed.

(** ** Every run of the action *)

Section Runs.

Context {W : World}.

Ltac paths :=
  unfold runAction, outcome, serverAction, mergeConfigFile, checkOutputFile,
    handleCredentialFlags, checkAnyCredentials, call_Server, call_readConfig,
    call_setupLogger, logError, when, bind, pure, return_, getCfg, setCfg,
    emit, start;
  simpl;
  repeat match goal with
    | |- context [if ?b then _ else _] => destruct b eqn:?; simpl
    | |- context [match ?x with Some _ => _ | None => _ end] =>
        destruct x eqn:?; simpl
    end.

Lemma foreign_nil (e : option string) : foreign e = None <-> e = None.
Proof. destruct e; simpl; split; congruence. Qed.

Lemma length_zero_false {A : Type} (l : list A) :
  Nat.eqb (length l) 0 = false -> l <> [].
Proof. destruct l; simpl; congruence. Qed.

(** X1: the action returns nil exactly when it called [action.Server] and
    [action.Server] returned nil. *)
Theorem action_nil_iff_server_nil c c0 :
  fst (runAction c c0) = None <->
  exists conf,
    serverCalls (calls (snd (runAction c c0))) = [(conf, setupLogger c0)] /\
    snd (action_Server conf (setupLogger c0)) = None.
Proof.
  paths; split;
    try discriminate;
    try (intros (conf & H & _); discriminate H);
    try (intros H; eexists; split; [reflexivity|apply foreign_nil; exact H]);
    try (intros (conf & H & E); injection H as H; rewrite <- H in E;
         apply foreign_nil; exact E).
Qed.


Lemma eqb_empty_false (x : string) : String.eqb x "" = false -> x <> "".
Proof. intros H. apply String.eqb_neq. exact H. Qed.

(** X2: [action.Server] is called at most once, and only on a configuration
    that names an output file and holds a credential, with the logger
    [setupLogger] made of the configuration the action started from. *)
Theorem server_called_on_checked_config c c0 conf lg :
  In (conf, lg) (serverCalls (calls (snd (runAction c c0)))) ->
  File (Target conf) <> "" /\
  Credentials (Target conf) <> [] /\
  lg = setupLogger c0 /\
  serverCalls (calls (snd (runAction c c0))) = [(conf, lg)].
Proof.
  paths; intros H; try contradiction;
    destruct H as [H|[]]; injection H as <- <-;
    (split; [apply eqb_empty_false; simpl; assumption|]);
    (split; [apply length_zero_false; simpl; assumption|]);
    split; reflexivity.
Qed.

(** X3: a run ends in one of two ways: with the call of [action.Server] and
    nothing logged, or with an error that is logged once, as the last thing
    the action does, and no call of [action.Server]. *)
Theorem logged_once_or_dispatched c c0 :
  (exists conf,
     serverCalls (calls (snd (runAction c c0))) = [(conf, setupLogger c0)] /\
     logEntries (calls (snd (runAction c c0))) = []) \/
  (exists e keyvals before,
     fst (runAction c c0) = Some e /\
     calls (snd (runAction c c0)) = before ++ [LogError keyvals] /\
     In (LogErr e) (map snd keyvals) /\
     logEntries before = [] /\
     serverCalls (calls (snd (runAction c c0))) = []).
Proof.
  paths;
    first
      [ left; eexists; split; reflexivity
      | right; eexists; eexists;
        first
          [ solve [ exists [CallSetupLogger c0]; simpl; repeat split; simpl; auto ]
          | solve [ exists [CallSetupLogger c0;
                            CallReadConfig (GetString c "hetzner.config") c0];
                    simpl; repeat split; simpl; auto ] ] ].
Qed.

(** X4: when [hetzner.config] is set, [readConfig] is called exactly once, on
    the value of the flag and the configuration the action started from,
    right after [setupLogger] and before any check. *)
Theorem readConfig_called_once_when_set c c0 :
  IsSet c "hetzner.config" = true ->
  exists rest,
    calls (snd (runAction c c0))
      = CallSetupLogger c0
        :: CallReadConfig (GetString c "hetzner.config") c0 :: rest /\
    readConfigCalls rest = [].
Proof.
  intros S. unfold runAction, outcome, serverAction, mergeConfigFile.
  rewrite S. paths; eexists; split; reflexivity.
Qed.

(** X5: [setupLogger] is called once, first, on the configuration the action
    started from: what [readConfig] merges later does not reach it. *)
Theorem logger_set_up_once_first c c0 :
  exists rest,
    calls (snd (runAction c c0)) = CallSetupLogger c0 :: rest /\
    setupLoggerCalls rest = [].
Proof. paths; eexists; split; reflexivity. Qed.


Lemma logEntries_app (a b : list Event) :
  logEntries (a ++ b) = logEntries a ++ logEntries b.
Proof.
  induction a as [|e a IH]; [reflexivity|].
  destruct e; simpl; rewrite IH; reflexivity.
Qed.

Lemma afterConfigMerge_no_log c c0 s1 :
  afterConfigMerge c c0 = Some s1 -> logEntries (calls s1) = [].
Proof.
  intros H. destruct (afterConfigMerge_inv _ _ _ H) as [[_ ->]|(_ & _ & ->)];
    reflexivity.
Qed.

Ltac rest_of_action M :=
  unfold runAction, outcome;
  rewrite (serverAction_from_merge _ _ _ M);
  unfold fromOutputFileCheck, checkOutputFile, handleCredentialFlags,
    checkAnyCredentials, call_Server, logError, when, bind, pure, return_,
    getCfg, setCfg, emit, fromFlags, flagCredential;
  simpl;
  repeat match goal with
    | |- context [if ?b then _ else _] => destruct b eqn:?; simpl
    end.

(** X6: the action changes the configuration in one way only: when both
    credential flags are set it appends their credential.  The
    configuration [action.Server] receives is the one the config file merge
    left, with the credentials of the merge first, in their order. *)
Theorem action_only_appends_flag_credential c c0 s1 conf lg :
  afterConfigMerge c c0 = Some s1 ->
  In (conf, lg) (serverCalls (calls (snd (runAction c c0)))) ->
  Server conf = Server (cfg s1) /\
  Logs conf = Logs (cfg s1) /\
  File (Target conf) = File (Target (cfg s1)) /\
  Refresh (Target conf) = Refresh (Target (cfg s1)) /\
  Credentials (Target conf) = Credentials (Target (cfg s1)) ++ fromFlags c.
Proof.
  intros M. pose proof (afterConfigMerge_no_server _ _ _ M) as N.
  rest_of_action M; rewrite ?serverCalls_app, ?N; simpl;
    intros H; try contradiction;
    destruct H as [H|[]]; injection H as <- <-; simpl;
    rewrite ?app_nil_r; repeat split; reflexivity.
Qed.

(** X7: the emptiness checks are for the credential of the flags only: when
    the two flags are not both set, any credentials the config file
    merged, whatever they hold, take the run into [action.Server], on the
    configuration as merged. *)
Theorem config_credentials_not_validated c c0 s1 :
  afterConfigMerge c c0 = Some s1 ->
  File (Target (cfg s1)) <> "" ->
  IsSet c "hetzner.username" && IsSet c "hetzner.password" = false ->
  Credentials (Target (cfg s1)) <> [] ->
  serverCalls (calls (snd (runAction c c0))) = [(cfg s1, setupLogger c0)] /\
  logEntries (calls (snd (runAction c c0))) = [] /\
  fst (runAction c c0) = foreign (snd (action_Server (cfg s1) (setupLogger c0))).
Proof.
  intros M F B N. pose proof (afterConfigMerge_no_server _ _ _ M) as S.
  pose proof (afterConfigMerge_no_log _ _ _ M) as L.
  unfold runAction, outcome. rewrite (serverAction_from_merge _ _ _ M).
  unfold fromOutputFileCheck, bind.
  rewrite (checkOutputFile_given _ _ F), (handleCredentialFlags_skip _ _ _ B),
    (checkAnyCredentials_some _ _ N), call_Server_eq.
  simpl. rewrite serverCalls_app, logEntries_app, S, L. repeat split.
Qed.

(** X8: without a config file and with no credentials to start from, the run
    reaches [action.Server] exactly when the output file is named and both
    credential flags are set to non-empty values. *)
Theorem server_reached_by_flags_iff c c0 :
  IsSet c "hetzner.config" = false ->
  Credentials (Target c0) = [] ->
  (serverCalls (calls (snd (runAction c c0))) <> [] <->
   File (Target c0) <> "" /\
   IsSet c "hetzner.username" = true /\
   IsSet c "hetzner.password" = true /\
   GetString c "hetzner.username" <> "" /\
   GetString c "hetzner.password" <> "").
Proof.
  intros S E.
  assert (M : afterConfigMerge c c0 = Some (entered c0)).
  { unfold afterConfigMerge, after, bind. rewrite call_setupLogger_start.
    rewrite (mergeConfigFile_unset _ _ _ S). reflexivity. }
  destruct (String.eqb_spec (File (Target c0)) "") as [F|F].
  { unfold runAction. rewrite (serverAction_from_merge _ _ _ M).
    unfold fromOutputFileCheck, bind.
    rewrite (checkOutputFile_empty (setupLogger c0) (entered c0) F). simpl.
    split; [congruence|]. intros [H _]. contradiction. }
  pose proof (serverAction_from_merge _ _ _ M) as R.
  unfold fromOutputFileCheck, bind in R.
  rewrite (checkOutputFile_given (setupLogger c0) (entered c0) F) in R.
  destruct (IsSet c "hetzner.username" && IsSet c "hetzner.password") eqn:B.
  - apply andb_prop in B. destruct B as [SU SP].
    pose proof (andb_both _ _ SU SP) as B.
    destruct (String.eqb_spec (GetString c "hetzner.username") "") as [U|U].
    { unfold runAction. rewrite R.
      rewrite (handleCredentialFlags_no_username _ _ _ B U). simpl.
      split; [congruence|]. intros (_ & _ & _ & H & _). contradiction. }
    destruct (String.eqb_spec (GetString c "hetzner.password") "") as [P|P].
    { unfold runAction. rewrite R.
      rewrite (handleCredentialFlags_no_password _ _ _ B U P). simpl.
      split; [congruence|]. intros (_ & _ & _ & _ & H). contradiction. }
    unfold runAction. rewrite R.
    rewrite (handleCredentialFlags_valid _ _ _ B U P).
    rewrite checkAnyCredentials_some
      by (simpl; destruct (Credentials (Target c0)); discriminate).
    rewrite call_Server_eq. simpl.
    split; [intros _; auto|discriminate].
  - unfold runAction. rewrite R.
    rewrite (handleCredentialFlags_skip _ _ _ B).
    rewrite (checkAnyCredentials_none (setupLogger c0) (entered c0) E). simpl.
    split; [congruence|]. intros (_ & SU & SP & _).
    rewrite SU, SP in B. discriminate.
Qed.

End Runs.

(** ** The flag table and the configuration the action starts from *)

Lemma store_credentials d v conf :
  Credentials (Target (store d v conf)) = Credentials (Target conf).
Proof. destruct d, v; reflexivity. Qed.

Lemma store_file_other d v conf :
  d <> TargetFile -> File (Target (store d v conf)) = File (Target conf).
Proof. intros N. destruct d, v; try reflexivity; contradiction. Qed.

Lemma bind1_credentials inv conf f :
  Credentials (Target (bind1 inv conf f)) = Credentials (Target conf).
Proof.
  unfold bind1. destruct (Destination f); [apply store_credentials|reflexivity].
Qed.

Lemma fold_bind1_credentials inv fs conf :
  Credentials (Target (fold_left (bind1 inv) fs conf)) = Credentials (Target conf).
Proof.
  revert conf. induction fs as [|f fs IH]; intros conf; [reflexivity|].
  simpl. rewrite IH. apply bind1_credentials.
Qed.

(** X9: no flag writes to [cfg.Target.Credentials]: whatever the command line
    and the environment hold, the action starts with the credentials
    [config.Load()] returned, and with the resolved value of [output.file]
    in [cfg.Target.File]. *)
Theorem entry_config_from_flags {L : ConfigPackage} inv :
  Credentials (Target (entryConfig inv)) = Credentials (Target Load) /\
  (forall f s,
     findFlag "output.file" serverFlags = Some f ->
     resolve inv f = StringValue s ->
     File (Target (entryConfig inv)) = s).
Proof.
  split.
  - unfold entryConfig. rewrite fold_bind1_credentials. reflexivity.
  - intros f s F R. injection F as <-.
    unfold entryConfig, globalFlags, serverFlags.
    cbn [fold_left app]. unfold bind1. cbn [Destination].
    rewrite store_file_other by discriminate.
    rewrite R. reflexivity.
Qed.

Lemma distinct_NoDup (l : list string) : distinct l = true -> NoDup l.
Proof.
  induction l as [|x l IH]; simpl; intros H; [constructor|].
  apply andb_prop in H. destruct H as [X D].
  constructor; [|exact (IH D)].
  intros I. apply negb_true_iff in X.
  assert (E : existsb (String.eqb x) l = true).
  { apply existsb_exists. exists x. split; [exact I|apply String.eqb_refl]. }
  congruence.
Qed.

(** X10: the flag table is well formed: no two flags share a name or alias, no
    two share an environment variable, no two write to the same field of
    the configuration; so a flag is found under its own name, and the
    three names the action asks for are string flags of the [server]
    command with the empty default and no destination. *)
Theorem flag_table_well_formed :
  NoDup flagNames /\
  NoDup (concat (map EnvVars (globalFlags ++ serverFlags))) /\
  NoDup (destinations (globalFlags ++ serverFlags)) /\
  (forall f,
     In f (serverFlags ++ globalFlags) ->
     findFlag (Name f) (serverFlags ++ globalFlags) = Some f) /\
  (forall name,
     In name queriedFlags ->
     exists f,
       findFlag name serverFlags = Some f /\
       Default f = StringValue "" /\
       Destination f = None).
Proof.
  split; [apply distinct_NoDup; reflexivity|].
  split; [apply distinct_NoDup; reflexivity|].
  split; [repeat constructor; simpl; intuition discriminate|].
  split.
  - intros f H. simpl in H.
    repeat (destruct H as [<-|H]; [reflexivity|]). contradiction.
  - intros name H. simpl in H.
    repeat (destruct H as [<-|H];
            [eexists; split; [reflexivity|split; reflexivity]|]).
    contradiction.
Qed.

(** ** The env file *)

Section Main.

Context {L : ConfigPackage} {P : Platform}.

(** X11: [godotenv.Load] is called only when PROMETHEUS_HETZNER_ENV_FILE holds
    a non-empty value, once and on that value; a variable that is empty
    counts as one that is not there.  Whether the load fails plays no part:
    [main] goes on to [app.Run] in the environment the load left, and the
    exit status is that of [app.Run]. *)
Theorem env_file_loaded_only_when_named env args :
  (assoc "PROMETHEUS_HETZNER_ENV_FILE" env = None \/
   assoc "PROMETHEUS_HETZNER_ENV_FILE" env = Some "" ->
   main env args = (finish (app_Run Load env args), [])) /\
  (forall file,
     assoc "PROMETHEUS_HETZNER_ENV_FILE" env = Some file ->
     file <> "" ->
     main env args
       = (finish (app_Run Load (fst (godotenv_Load file env)) args), [file])).
Proof.
  unfold main, Getenv. split.
  - intros [H|H]; rewrite H; reflexivity.
  - intros file H N. rewrite H.
    destruct (String.eqb_spec file ""); [contradiction|reflexivity].
Qed.

End Main.

(** ** These theorems at the sample invocations *)

Lemma server_called_on_checked_config_witness :
  serverCalls (calls (snd (runAction (W := sampleWorld)
                             (contextOf bothFlags) (entryConfig (L := zeroConfig) bothFlags))))
    = [(cfg (appended (W := sampleWorld) (contextOf bothFlags) (entered (entryConfig (L := zeroConfig) bothFlags))), tt)] /\
  Credentials
    (Target (cfg (appended (W := sampleWorld) (contextOf bothFlags) (entered (entryConfig (L := zeroConfig) bothFlags)))))
    <> [].
Proof.
  split; [reflexivity|].
  apply (@server_called_on_checked_config sampleWorld
           (contextOf bothFlags) (entryConfig (L := zeroConfig) bothFlags)
           (cfg (appended (W := sampleWorld) (contextOf bothFlags) (entered (entryConfig (L := zeroConfig) bothFlags))))
           tt).
  left. reflexivity.
Defined.

Lemma readConfig_called_once_when_set_witness :
  IsSet (contextOf configFileOnly) "hetzner.config" = true /\
  exists rest,
    calls (snd (runAction (W := sampleWorld)
                  (contextOf configFileOnly) (entryConfig (L := zeroConfig) configFileOnly)))
      = CallSetupLogger (entryConfig (L := zeroConfig) configFileOnly)
        :: CallReadConfig "hetzner.yml" (entryConfig (L := zeroConfig) configFileOnly) :: rest /\
    readConfigCalls rest = [].
Proof.
  split; [reflexivity|].
  apply (@readConfig_called_once_when_set sampleWorld
           (contextOf configFileOnly) (entryConfig (L := zeroConfig) configFileOnly)).
  reflexivity.
Defined.

Lemma action_only_appends_flag_credential_witness :
  afterConfigMerge (W := sampleWorld) (contextOf bothFlags) (entryConfig (L := zeroConfig) bothFlags)
    = Some (entered (entryConfig (L := zeroConfig) bothFlags)) /\
  Credentials
    (Target (cfg (appended (W := sampleWorld) (contextOf bothFlags) (entered (entryConfig (L := zeroConfig) bothFlags)))))
    = [] ++ fromFlags (contextOf bothFlags).
Proof.
  split; [reflexivity|].
  apply (@action_only_appends_flag_credential sampleWorld
           (contextOf bothFlags) (entryConfig (L := zeroConfig) bothFlags)
           (entered (entryConfig (L := zeroConfig) bothFlags))
           (cfg (appended (W := sampleWorld) (contextOf bothFlags) (entered (entryConfig (L := zeroConfig) bothFlags))))
           tt).
  - reflexivity.
  - left. reflexivity.
Defined.

Lemma config_credentials_not_validated_witness :
  Credentials
    (Target (fst (readConfig (World := blankCredentialWorld) "hetzner.yml"
                    (entryConfig (L := zeroConfig) configFileOnly))))
    = [mkCredential "" "" ""] /\
  serverCalls (calls (snd (runAction (W := blankCredentialWorld)
                             (contextOf configFileOnly) (entryConfig (L := zeroConfig) configFileOnly))))
    = [(fst (readConfig (World := blankCredentialWorld) "hetzner.yml"
               (entryConfig (L := zeroConfig) configFileOnly)), tt)].
Proof.
  split; [reflexivity|].
  apply (@config_credentials_not_validated blankCredentialWorld
           (contextOf configFileOnly) (entryConfig (L := zeroConfig) configFileOnly)
           (mkState
              (fst (readConfig (World := blankCredentialWorld) "hetzner.yml"
                      (entryConfig (L := zeroConfig) configFileOnly)))
              [CallSetupLogger (entryConfig (L := zeroConfig) configFileOnly);
               CallReadConfig "hetzner.yml" (entryConfig (L := zeroConfig) configFileOnly)])).
  - reflexivity.
  - simpl. discriminate.
  - reflexivity.
  - simpl. discriminate.
Defined.

Lemma server_reached_by_flags_iff_witness :
  serverCalls (calls (snd (runAction (W := sampleWorld)
                             (contextOf bothFlags) (entryConfig (L := zeroConfig) bothFlags)))) <> [] /\
  serverCalls (calls (snd (runAction (W := sampleWorld)
                             (contextOf usernameOnly) (entryConfig (L := zeroConfig) usernameOnly)))) = [].
Proof.
  split.
  - apply (@server_reached_by_flags_iff sampleWorld
             (contextOf bothFlags) (entryConfig (L := zeroConfig) bothFlags) eq_refl eq_refl).
    repeat split; simpl; discriminate.
  - reflexivity.
Defined.

Lemma entry_config_from_flags_witness :
  File (Target (entryConfig (L := zeroConfig) emptyOutputFile)) = "" /\
  File (Target (entryConfig (L := zeroConfig) noFlags)) = "/etc/prometheus/hetzner.json".
Proof.
  split.
  - apply (proj2 (@entry_config_from_flags zeroConfig emptyOutputFile)
             (mkFlag "output.file" (StringValue "/etc/prometheus/hetzner.json")
                "Path to write the file_sd config"
                ["PROMETHEUS_HETZNER_OUTPUT_FILE"] (Some TargetFile)));
      reflexivity.
  - apply (proj2 (@entry_config_from_flags zeroConfig noFlags)
             (mkFlag "output.file" (StringValue "/etc/prometheus/hetzner.json")
                "Path to write the file_sd config"
                ["PROMETHEUS_HETZNER_OUTPUT_FILE"] (Some TargetFile)));
      reflexivity.
Defined.

Lemma flag_table_well_formed_witness :
  exists f,
    findFlag "hetzner.username" serverFlags = Some f /\
    Default f = StringValue "" /\
    Destination f = None.
Proof.
  destruct flag_table_well_formed as (_ & _ & _ & _ & Q).
  apply Q. right. left. reflexivity.
Defined.

Lemma env_file_loaded_only_when_named_witness :
  main (L := zeroConfig) (P := samplePlatform) [("PROMETHEUS_HETZNER_ENV_FILE", "")] ["server"]
    = (OsExit 1, []) /\
  main (L := zeroConfig) (P := samplePlatform)
       [("PROMETHEUS_HETZNER_ENV_FILE", ".env");
        ("PROMETHEUS_HETZNER_CONFIG", "hetzner.yml")] ["server"]
    = (MainReturns, [".env"]).
Proof.
  split.
  - rewrite (proj1 (@env_file_loaded_only_when_named zeroConfig samplePlatform
                      [("PROMETHEUS_HETZNER_ENV_FILE", "")] ["server"])).
    + reflexivity.
    + right. reflexivity.
  - rewrite (proj2 (@env_file_loaded_only_when_named zeroConfig samplePlatform
                      [("PROMETHEUS_HETZNER_ENV_FILE", ".env");
                       ("PROMETHEUS_HETZNER_CONFIG", "hetzner.yml")] ["server"])
               ".env").
    + reflexivity.
    + reflexivity.
    + discriminate.
Defined.
